(** * pybullet_rendering: the URDF conversion helpers of [src/plugin/utils.h]

    A shallow embedding of [makePose], [getMeshData], [makeShape] and
    [makeVisualShapeData], and the properties of the conversion layer
    proved over it.

    Layout:
    - scalars: IEEE-754 values of the Standard Library's [SpecFloat];
    - [btVector3], [btQuaternion], [btTransform]: the data of Bullet's
      LinearMath, with the transform algebra left abstract ([LinearMath]);
    - the URDF records read by the helpers and the scene records they build;
    - [SceneM]: the single effect of the file, [SceneGraph::registerTexture];
    - the four helpers, then the theorems. *)

From Stdlib Require Import ZArith Bool Ascii String List Lia.
From Stdlib Require Import Floats.SpecFloat.
From stdpp Require Import base option list.

Set Implicit Arguments.
Open Scope Z_scope.

(* ===================================================================== *)
(** ** Scalars *)
(* ===================================================================== *)

(** [btScalar] is Bullet's scalar type.  The helpers only compile against a
    double precision Bullet: [makePose(frame, {r, r, h})] list-initialises a
    [btVector3] from the [double] fields [m_capsuleRadius] and
    [m_capsuleHeight], which is a narrowing conversion unless [btScalar] is
    [double].  So [btScalar] and [double] are IEEE binary64 and the [float]
    of the scene records is IEEE binary32. *)
Definition btScalar : Type := spec_float.
Definition double : Type := spec_float.
Definition float : Type := spec_float.

Module B64.
Definition prec : Z := 53.
Definition emax : Z := 1024.
Definition add : btScalar -> btScalar -> btScalar := SFadd prec emax.
Definition sub : btScalar -> btScalar -> btScalar := SFsub prec emax.
Definition mul : btScalar -> btScalar -> btScalar := SFmul prec emax.
Definition sqrt : btScalar -> btScalar := SFsqrt prec emax.
(** [a < b] of C++: false as soon as one side is a NaN. *)
Definition ltb : btScalar -> btScalar -> bool := SFltb.
(** [a >= b] of C++, that is [b <= a]; false on NaN as well. *)
Definition geb (a b : btScalar) : bool := SFleb b a.

Definition zero : btScalar := S754_zero false.
Definition one : btScalar := S754_finite false 4503599627370496 (-52).
(** The literal [0.99]: the binary64 nearest to 99/100. *)
Definition c0_99 : btScalar := S754_finite false 8917127262193582 (-53).
End B64.

Module B32.
Definition prec : Z := 24.
Definition emax : Z := 128.
End B32.

(** The conversion [float(x)] of a [double]: round to nearest, ties to even,
    overflow to an infinity; zeros, infinities and NaN are kept. *)
Definition to_float (x : double) : float :=
  match x with
  | S754_finite s m e => binary_round B32.prec B32.emax s m e
  | _ => x
  end.

(* ===================================================================== *)
(** ** Bullet's LinearMath data *)
(* ===================================================================== *)

(** [btVector3]: the three used components ([x()], [y()], [z()], also
    reached as [v[0]], [v[1]], [v[2]]). *)
Record btVector3 : Type := mk_btVector3 {
  v3_x : btScalar;
  v3_y : btScalar;
  v3_z : btScalar
}.

(** [btVector4], indexed [d[0]] .. [d[3]] by the helpers. *)
Record btVector4 : Type := mk_btVector4 {
  v4_0 : btScalar;
  v4_1 : btScalar;
  v4_2 : btScalar;
  v4_3 : btScalar
}.

Record btQuaternion : Type := mk_btQuaternion {
  q_x : btScalar;
  q_y : btScalar;
  q_z : btScalar;
  q_w : btScalar
}.

Record btMatrix3x3 : Type := mk_btMatrix3x3 {
  m_el0 : btVector3;
  m_el1 : btVector3;
  m_el2 : btVector3
}.

Record btTransform : Type := mk_btTransform {
  getBasis : btMatrix3x3;
  getOrigin : btVector3
}.

Module Vec3.
(** [btVector3::dot], [cross], [length2] and [length], scalar code path
    (the one a double precision build uses). *)
Definition dot (a b : btVector3) : btScalar :=
  B64.add (B64.add (B64.mul (v3_x a) (v3_x b)) (B64.mul (v3_y a) (v3_y b)))
          (B64.mul (v3_z a) (v3_z b)).

Definition cross (a b : btVector3) : btVector3 :=
  mk_btVector3
    (B64.sub (B64.mul (v3_y a) (v3_z b)) (B64.mul (v3_z a) (v3_y b)))
    (B64.sub (B64.mul (v3_z a) (v3_x b)) (B64.mul (v3_x a) (v3_z b)))
    (B64.sub (B64.mul (v3_x a) (v3_y b)) (B64.mul (v3_y a) (v3_x b))).

Definition length2 (a : btVector3) : btScalar := dot a a.
Definition length (a : btVector3) : btScalar := B64.sqrt (length2 a).
End Vec3.

(** What the helpers call in Bullet and in its headers without the file
    fixing it: the transform algebra, the axis-angle quaternion, [btAsin],
    and three constants of [SharedMemoryPublic.h] and [UrdfParser.h]. *)
Class LinearMath : Type := {
  (** [btTransform::inverse()] *)
  btTransform_inverse : btTransform -> btTransform;
  (** [btTransform::operator*] *)
  btTransform_mul : btTransform -> btTransform -> btTransform;
  (** [btTransform(const btQuaternion&)] *)
  btTransform_of_quat : btQuaternion -> btTransform;
  (** [btMatrix3x3::getRotation(btQuaternion&)] *)
  btMatrix3x3_getRotation : btMatrix3x3 -> btQuaternion;
  (** [btQuaternion(const btVector3& axis, const btScalar& angle)] *)
  btQuaternion_axis_angle : btVector3 -> btScalar -> btQuaternion;
  (** [btAsin] *)
  btAsin : btScalar -> btScalar;
  (** the flag mask [URDF_USE_MATERIAL_COLORS_FROM_MTL] *)
  URDF_USE_MATERIAL_COLORS_FROM_MTL : Z;
  (** the capacity [VISUAL_SHAPE_MAX_PATH_LEN] of [m_meshAssetFileName] *)
  VISUAL_SHAPE_MAX_PATH_LEN : nat;
  (** the mesh file type [UrdfGeometry::MEMORY_VERTICES] *)
  MEMORY_VERTICES : Z
}.

(** [btTransform::getRotation()]: the rotation of the basis. *)
Definition getRotation `{LinearMath} (t : btTransform) : btQuaternion :=
  btMatrix3x3_getRotation (getBasis t).

(* ===================================================================== *)
(** ** URDF records (Bullet's [UrdfParser.h]) *)
(* ===================================================================== *)

Inductive UrdfGeomTypes : Type :=
| URDF_GEOM_SPHERE
| URDF_GEOM_BOX
| URDF_GEOM_CYLINDER
| URDF_GEOM_MESH
| URDF_GEOM_PLANE
| URDF_GEOM_CAPSULE
| URDF_GEOM_CDF
| URDF_GEOM_HEIGHTFIELD
| URDF_GEOM_UNKNOWN.

#[global] Instance UrdfGeomTypes_eq_dec : EqDecision UrdfGeomTypes.
Proof. solve_decision. Defined.

(** The enumerators as integers (the enumeration starts at 2). *)
Definition UrdfGeomTypes_to_int (t : UrdfGeomTypes) : Z :=
  match t with
  | URDF_GEOM_SPHERE => 2
  | URDF_GEOM_BOX => 3
  | URDF_GEOM_CYLINDER => 4
  | URDF_GEOM_MESH => 5
  | URDF_GEOM_PLANE => 6
  | URDF_GEOM_CAPSULE => 7
  | URDF_GEOM_CDF => 8
  | URDF_GEOM_HEIGHTFIELD => 9
  | URDF_GEOM_UNKNOWN => 10
  end.

Record UrdfGeometry : Type := mk_UrdfGeometry {
  m_type : UrdfGeomTypes;
  m_sphereRadius : double;
  m_boxSize : btVector3;
  m_capsuleRadius : double;
  m_capsuleHeight : double;
  m_planeNormal : btVector3;
  m_meshFileType : Z;
  m_meshFileName : string;
  m_meshScale : btVector3;
  m_vertices : list btVector3;
  m_uvs : list btVector3;
  m_normals : list btVector3;
  m_indices : list Z
}.

Record UrdfMaterialColor : Type := mk_UrdfMaterialColor {
  m_rgbaColor : btVector4;
  m_specularColor : btVector3
}.

Record UrdfMaterial : Type := mk_UrdfMaterial {
  m_textureFilename : string;
  m_matColor : UrdfMaterialColor
}.

Record UrdfShape : Type := mk_UrdfShape {
  m_linkLocalFrame : btTransform;
  m_geometry : UrdfGeometry
}.

(* ===================================================================== *)
(** ** Scene records (the plugin's [scene/] and [utils/math.h]) *)
(* ===================================================================== *)

(** Modelled from the spec: [Affine3f] of [utils/math.h], the Pose: a 3D
    translation (origin), a quaternion written (w, x, y, z) and a 3D scale,
    all single precision. *)
Record Affine3f : Type := mk_Affine3f {
  origin : float * float * float;
  quat : float * float * float * float;
  scale : float * float * float
}.

(** Modelled from the spec: [scene::MeshData], flat arrays of vertex
    positions (3 floats per vertex), texture coordinates (2 per vertex),
    normals (3 per vertex) and triangle indices. *)
Record MeshData : Type := mk_MeshData {
  vertices : list float;
  uvs : list float;
  normals : list float;
  indices : list Z
}.

(** Modelled from the spec: [scene::Mesh], built either from literal
    in-memory data or from a filename for external loading. *)
Inductive Mesh : Type :=
| Mesh_of_data (data : MeshData)
| Mesh_of_file (filename : string).

(** Modelled from the spec: [scene::Texture], identified by its filename. *)
Record Texture : Type := mk_Texture { tex_filename : string }.

(** Modelled from the spec: [scene::Material], diffuse RGBA, specular RGB and
    a texture id, -1 meaning no texture. *)
Record Material : Type := mk_Material {
  diffuse : float * float * float * float;
  specular : float * float * float;
  texture_id : Z
}.

Module ShapeType.
Inductive t : Type :=
| Cube | Sphere | Cylinder | Capsule | Plane | Mesh | Heightfield.
End ShapeType.

(** Modelled from the spec: [scene::Shape], a tagged variant carrying a Pose,
    an optional shared Material and an optional shared Mesh; [Shape_default]
    is the default-constructed [Shape{}], with no variant-specific data. *)
Inductive Shape : Type :=
| Shape_default
| mk_Shape (type : ShapeType.t) (pose : Affine3f)
           (material : option Material) (mesh : option Mesh).

Definition shape_type (s : Shape) : option ShapeType.t :=
  match s with Shape_default => None | mk_Shape t _ _ _ => Some t end.
Definition shape_pose (s : Shape) : option Affine3f :=
  match s with Shape_default => None | mk_Shape _ p _ _ => Some p end.
Definition shape_material (s : Shape) : option Material :=
  match s with Shape_default => None | mk_Shape _ _ m _ => m end.
Definition shape_mesh (s : Shape) : option Mesh :=
  match s with Shape_default => None | mk_Shape _ _ _ m => m end.

(** Bullet's [b3VisualShapeData] ([SharedMemoryPublic.h]); the arrays
    [m_dimensions], [m_localVisualFrame] and [m_rgbaColor] are lists, and
    [m_meshAssetFileName], a [char[VISUAL_SHAPE_MAX_PATH_LEN]], is the list
    of the bytes stored in it. *)
Module b3.
Record VisualShapeData : Type := mk_VisualShapeData {
  m_objectUniqueId : Z;
  m_linkIndex : Z;
  m_visualGeometryType : Z;
  m_dimensions : list double;
  m_meshAssetFileName : list ascii;
  m_localVisualFrame : list double;
  m_rgbaColor : list double;
  m_tinyRendererTextureId : Z;
  m_textureUniqueId : Z;
  m_openglTextureId : Z
}.
End b3.
Abbreviation b3VisualShapeData := b3.VisualShapeData.

(* ===================================================================== *)
(** ** The scene graph effect *)
(* ===================================================================== *)

(** A computation that may call [graph.registerTexture(t)] and goes on with
    the id it returns.  The scene graph itself stays outside: [runScene]
    threads any implementation of the call through a computation. *)
Inductive SceneM (A : Type) : Type :=
| Ret (a : A)
| RegisterTexture (t : Texture) (k : Z -> SceneM A).
Arguments Ret {A} a.
Arguments RegisterTexture {A} t k.

Fixpoint bind {A B : Type} (m : SceneM A) (f : A -> SceneM B) : SceneM B :=
  match m with
  | Ret a => f a
  | RegisterTexture t k => RegisterTexture t (fun id => bind (k id) f)
  end.

Definition registerTexture (t : Texture) : SceneM Z := RegisterTexture t Ret.

Declare Scope scene_scope.
Delimit Scope scene_scope with scene.
Notation "x <- m ;; k" := (bind m (fun x => k))
  (at level 100, m at next level, right associativity) : scene_scope.

Section Run.
Context {G : Type}.
(** An implementation of [SceneGraph::registerTexture] on graphs [G]. *)
Variable impl : Texture -> G -> Z * G.

Fixpoint runScene {A : Type} (m : SceneM A) (g : G) : A * G :=
  match m with
  | Ret a => (a, g)
  | RegisterTexture t k => let '(id, g') := impl t g in runScene (k id) g'
  end.

(** The textures registered along the run, oldest first. *)
Fixpoint registered {A : Type} (m : SceneM A) (g : G) : list Texture :=
  match m with
  | Ret _ => []
  | RegisterTexture t k => let '(id, g') := impl t g in t :: registered (k id) g'
  end.
End Run.

(* ===================================================================== *)
(** ** C library and container helpers *)
(* ===================================================================== *)

Definition NUL : ascii := Ascii.zero.

(** [std::string::c_str()]: the characters followed by a terminator. *)
Definition c_str (s : string) : list ascii := list_ascii_of_string s ++ [NUL].

(** [std::string::empty()] *)
Definition empty (s : string) : bool :=
  match s with EmptyString => true | String _ _ => false end.

(** [strncpy(dest, src, n)] as the [n] bytes it stores at [dest]: the bytes
    of [src] up to its terminator, then NUL padding up to [n]; when no
    terminator occurs among the first [n] bytes of [src], none is stored. *)
Fixpoint strncpy (src : list ascii) (n : nat) {struct n} : list ascii :=
  match n with
  | O => []
  | S n' =>
      match src with
      | [] => repeat NUL n
      | c :: src' =>
          if Ascii.eqb c NUL then repeat NUL n else c :: strncpy src' n'
      end
  end.

(** [for (int i = i0; i < i0 + n; ++i) body(i)] on a loop state [s]. *)
Fixpoint for_range {St : Type} (i0 n : nat) (body : nat -> St -> St) (s : St) : St :=
  match n with
  | O => s
  | S n' => for_range (S i0) n' body (body i0 s)
  end.

(** [v.push_back(x)] *)
Definition push_back {A : Type} (v : list A) (x : A) : list A := v ++ [x].

(* ===================================================================== *)
(** ** The helpers of [utils.h] *)
(* ===================================================================== *)

Section Helpers.
Context `{LM : LinearMath}.

Definition makePose (frame : btTransform) (scale : btVector3) : Affine3f :=
  let origin := getOrigin frame in
  let basis := getBasis frame in
  let quat := btMatrix3x3_getRotation basis in
  {| origin := (to_float (v3_x origin), to_float (v3_y origin), to_float (v3_z origin));
     quat := (to_float (q_w quat), to_float (q_x quat), to_float (q_y quat),
              to_float (q_z quat));
     scale := (to_float (v3_x scale), to_float (v3_y scale), to_float (v3_z scale)) |}.

(** The four loops of [getMeshData].  [reserve] only preallocates and leaves
    the contents alone; an element read [a[i]] is always in range, the
    loops running up to [a.size()]. *)
Definition getMeshData (geometry : UrdfGeometry) : MeshData :=
  let verticesCount := length (m_vertices geometry) in
  let uvsCount := length (m_uvs geometry) in
  let normalsCount := length (m_normals geometry) in
  let indicesCount := length (m_indices geometry) in
  let vertices :=
    for_range 0 verticesCount (fun i vertices =>
      match m_vertices geometry !! i with
      | Some vertex =>
          let vertices := push_back vertices (to_float (v3_x vertex)) in
          let vertices := push_back vertices (to_float (v3_y vertex)) in
          push_back vertices (to_float (v3_z vertex))
      | None => vertices
      end) [] in
  let uvs :=
    for_range 0 uvsCount (fun i uvs =>
      match m_uvs geometry !! i with
      | Some uv =>
          let uvs := push_back uvs (to_float (v3_x uv)) in
          push_back uvs (to_float (v3_y uv))
      | None => uvs
      end) [] in
  let normals :=
    for_range 0 normalsCount (fun i normals =>
      match m_normals geometry !! i with
      | Some normal =>
          let normals := push_back normals (to_float (v3_x normal)) in
          let normals := push_back normals (to_float (v3_y normal)) in
          push_back normals (to_float (v3_z normal))
      | None => normals
      end) [] in
  let indices :=
    for_range 0 indicesCount (fun i indices =>
      match m_indices geometry !! i with
      | Some index => push_back indices index
      | None => indices
      end) [] in
  mk_MeshData vertices uvs normals indices.

(** [makeShape]; the [graph] argument is the scene graph [SceneM] runs on. *)
Definition makeShape (urdfShape : UrdfShape) (urdfMaterial : UrdfMaterial)
    (localInertiaFrame : btTransform) (flags : Z) : SceneM Shape :=
  (let frame :=
     btTransform_mul (btTransform_inverse localInertiaFrame)
                     (m_linkLocalFrame urdfShape) in
   let fname := m_textureFilename urdfMaterial in
   textureId <- (if empty fname then Ret (-1)
                 else registerTexture (mk_Texture fname)) ;;
   let d := m_rgbaColor (m_matColor urdfMaterial) in
   let s := m_specularColor (m_matColor urdfMaterial) in
   let material : option Material :=
     Some (mk_Material
             (to_float (v4_0 d), to_float (v4_1 d), to_float (v4_2 d), to_float (v4_3 d))
             (to_float (v3_x s), to_float (v3_y s), to_float (v3_z s))
             textureId) in
   let geometry := m_geometry urdfShape in
   if decide (URDF_GEOM_BOX = m_type geometry) then
     let pose := makePose frame (m_boxSize geometry) in
     Ret (mk_Shape ShapeType.Cube pose material None)
   else if decide (URDF_GEOM_SPHERE = m_type geometry) then
     let r := m_sphereRadius geometry in
     let pose := makePose frame (mk_btVector3 r r r) in
     Ret (mk_Shape ShapeType.Sphere pose material None)
   else if decide (URDF_GEOM_CYLINDER = m_type geometry) then
     let r := m_capsuleRadius geometry in
     let h := m_capsuleHeight geometry in
     let pose := makePose frame (mk_btVector3 r r h) in
     Ret (mk_Shape ShapeType.Cylinder pose material None)
   else if decide (URDF_GEOM_CAPSULE = m_type geometry) then
     let r := m_capsuleRadius geometry in
     let h := m_capsuleHeight geometry in
     let pose := makePose frame (mk_btVector3 r r h) in
     Ret (mk_Shape ShapeType.Capsule pose material None)
   else if decide (URDF_GEOM_PLANE = m_type geometry) then
     let n := m_planeNormal geometry in
     let z := mk_btVector3 B64.zero B64.zero B64.one in
     let frame :=
       if B64.ltb (Vec3.dot n z) B64.c0_99 then
         let axis := Vec3.cross n z in
         let quat := btQuaternion_axis_angle axis (btAsin (Vec3.length axis)) in
         btTransform_mul frame (btTransform_of_quat quat)
       else frame in
     let pose := makePose frame (mk_btVector3 B64.one B64.one B64.one) in
     Ret (mk_Shape ShapeType.Plane pose material None)
   else if decide (URDF_GEOM_MESH = m_type geometry) then
     let pose := makePose frame (m_meshScale geometry) in
     let mesh :=
       if m_meshFileType geometry =? MEMORY_VERTICES
       then Mesh_of_data (getMeshData geometry)
       else Mesh_of_file (m_meshFileName geometry) in
     let material :=
       if negb (Z.land flags URDF_USE_MATERIAL_COLORS_FROM_MTL =? 0)
       then None else material in
     Ret (mk_Shape ShapeType.Mesh pose material (Some mesh))
   else if decide (URDF_GEOM_HEIGHTFIELD = m_type geometry) then
     let pose := makePose frame (mk_btVector3 B64.one B64.one B64.one) in
     let mesh := Mesh_of_data (getMeshData geometry) in
     Ret (mk_Shape ShapeType.Heightfield pose material (Some mesh))
   else
     Ret Shape_default)%scene.

Definition makeVisualShapeData (urdfShape : UrdfShape) (urdfMaterial : UrdfMaterial)
    (localInertiaFrame : btTransform) (bodyUniqueId linkIndex : Z)
    : b3VisualShapeData :=
  let origin := getOrigin localInertiaFrame in
  let rotate := getRotation localInertiaFrame in
  {| b3.m_objectUniqueId := bodyUniqueId;
     b3.m_linkIndex := linkIndex;
     b3.m_localVisualFrame :=
       [v3_x origin; v3_y origin; v3_z origin;
        q_x rotate; q_y rotate; q_z rotate; q_w rotate];
     b3.m_visualGeometryType := UrdfGeomTypes_to_int (m_type (m_geometry urdfShape));
     b3.m_dimensions :=
       [v3_x (m_meshScale (m_geometry urdfShape));
        v3_x (m_meshScale (m_geometry urdfShape));
        v3_x (m_meshScale (m_geometry urdfShape))];
     b3.m_rgbaColor :=
       [v4_0 (m_rgbaColor (m_matColor urdfMaterial));
        v4_1 (m_rgbaColor (m_matColor urdfMaterial));
        v4_2 (m_rgbaColor (m_matColor urdfMaterial));
        v4_3 (m_rgbaColor (m_matColor urdfMaterial))];
     b3.m_meshAssetFileName :=
       strncpy (c_str (m_textureFilename urdfMaterial)) VISUAL_SHAPE_MAX_PATH_LEN;
     b3.m_textureUniqueId := -1;
     b3.m_openglTextureId := -1;
     b3.m_tinyRendererTextureId := -1 |}.

End Helpers.

(* ===================================================================== *)
(** ** Observations on the helpers *)
(* ===================================================================== *)

(** The flattening of one vector: three coordinates, or the first two. *)
Definition xyz (v : btVector3) : list float :=
  [to_float (v3_x v); to_float (v3_y v); to_float (v3_z v)].
Definition xy (v : btVector3) : list float :=
  [to_float (v3_x v); to_float (v3_y v)].

(** The frame [makeShape] starts from:
    [localInertiaFrame.inverse() * urdfShape.m_linkLocalFrame]. *)
Definition link_frame `{LM : LinearMath} (urdfShape : UrdfShape)
    (localInertiaFrame : btTransform) : btTransform :=
  btTransform_mul (btTransform_inverse localInertiaFrame) (m_linkLocalFrame urdfShape).

(** The [Shape] returned by [makeShape] on the graph [g], the graph it
    leaves, and the textures it registered. *)
Definition made_shape `{LM : LinearMath} {G : Type} (impl : Texture -> G -> Z * G)
    (g : G) (urdfShape : UrdfShape) (urdfMaterial : UrdfMaterial)
    (localInertiaFrame : btTransform) (flags : Z) : Shape :=
  fst (runScene impl (makeShape urdfShape urdfMaterial localInertiaFrame flags) g).

Definition graph_after `{LM : LinearMath} {G : Type} (impl : Texture -> G -> Z * G)
    (g : G) (urdfShape : UrdfShape) (urdfMaterial : UrdfMaterial)
    (localInertiaFrame : btTransform) (flags : Z) : G :=
  snd (runScene impl (makeShape urdfShape urdfMaterial localInertiaFrame flags) g).

Definition textures_registered `{LM : LinearMath} {G : Type}
    (impl : Texture -> G -> Z * G) (g : G) (urdfShape : UrdfShape)
    (urdfMaterial : UrdfMaterial) (localInertiaFrame : btTransform) (flags : Z)
    : list Texture :=
  registered impl (makeShape urdfShape urdfMaterial localInertiaFrame flags) g.

(** [flags & URDF_USE_MATERIAL_COLORS_FROM_MTL] is non-zero. *)
Definition use_material_colors_from_mtl `{LM : LinearMath} (flags : Z) : Prop :=
  Z.land flags URDF_USE_MATERIAL_COLORS_FROM_MTL <> 0.

(** The geometry tags [makeShape] has a branch for. *)
Definition supported (t : UrdfGeomTypes) : bool :=
  match t with
  | URDF_GEOM_CDF | URDF_GEOM_UNKNOWN => false
  | _ => true
  end.

(** A [char] array read as a C string: the bytes before its first NUL (all
    of them when it holds none). *)
Fixpoint c_string (buf : list ascii) : list ascii :=
  match buf with
  | [] => []
  | c :: buf' => if Ascii.eqb c NUL then [] else c :: c_string buf'
  end.


(** The single precision 1. *)
Definition float_one : float := S754_finite false 8388608 (-23).

(* ===================================================================== *)
(** ** Sample inputs *)
(* ===================================================================== *)

Module Sample.
(** One instance of [LinearMath], to run the helpers on concrete inputs:
    Bullet's constants, and the transform algebra of pure translations
    (identity rotations).  The theorems below hold for every instance. *)
Definition vadd (a b : btVector3) : btVector3 :=
  mk_btVector3 (B64.add (v3_x a) (v3_x b)) (B64.add (v3_y a) (v3_y b))
               (B64.add (v3_z a) (v3_z b)).
Definition vneg (a : btVector3) : btVector3 :=
  mk_btVector3 (SFopp (v3_x a)) (SFopp (v3_y a)) (SFopp (v3_z a)).
Definition identity_basis : btMatrix3x3 :=
  mk_btMatrix3x3 (mk_btVector3 B64.one B64.zero B64.zero)
                 (mk_btVector3 B64.zero B64.one B64.zero)
                 (mk_btVector3 B64.zero B64.zero B64.one).
Definition identity_quat : btQuaternion :=
  mk_btQuaternion B64.zero B64.zero B64.zero B64.one.
Definition zero3 : btVector3 := mk_btVector3 B64.zero B64.zero B64.zero.

Definition math : LinearMath :=
  {| btTransform_inverse := fun t => mk_btTransform (getBasis t) (vneg (getOrigin t));
     btTransform_mul := fun a b =>
       mk_btTransform (getBasis a) (vadd (getOrigin a) (getOrigin b));
     btTransform_of_quat := fun _ => mk_btTransform identity_basis zero3;
     btMatrix3x3_getRotation := fun _ => identity_quat;
     btQuaternion_axis_angle := fun _ _ => identity_quat;
     btAsin := fun x => x;
     URDF_USE_MATERIAL_COLORS_FROM_MTL := 32768;
     VISUAL_SHAPE_MAX_PATH_LEN := 1024;
     MEMORY_VERTICES := 5 |}.

Definition two : btScalar := S754_finite false 4503599627370496 (-51).
Definition half : btScalar := S754_finite false 4503599627370496 (-53).

Definition frame : btTransform := mk_btTransform identity_basis zero3.

Definition geometry (t : UrdfGeomTypes) : UrdfGeometry :=
  {| m_type := t;
     m_sphereRadius := half;
     m_boxSize := mk_btVector3 B64.one two half;
     m_capsuleRadius := half;
     m_capsuleHeight := two;
     m_planeNormal := mk_btVector3 B64.one B64.zero B64.zero;
     m_meshFileType := 5;
     m_meshFileName := "";
     m_meshScale := mk_btVector3 two B64.one half;
     m_vertices := [mk_btVector3 B64.zero B64.one two; mk_btVector3 half two B64.one];
     m_uvs := [mk_btVector3 B64.zero B64.one B64.zero];
     m_normals := [mk_btVector3 B64.zero B64.zero B64.one];
     m_indices := [0; 1; 1] |}.

Definition shape (t : UrdfGeomTypes) : UrdfShape :=
  {| m_linkLocalFrame := frame; m_geometry := geometry t |}.

Definition color : UrdfMaterialColor :=
  {| m_rgbaColor := mk_btVector4 B64.one half half B64.one;
     m_specularColor := mk_btVector3 half half half |}.

Definition material (fname : string) : UrdfMaterial :=
  {| m_textureFilename := fname; m_matColor := color |}.

(** A scene graph that numbers textures in registration order. *)
Definition counter_graph (t : Texture) (g : list Texture) : Z * list Texture :=
  (Z.of_nat (length g), g ++ [t]).
End Sample.

(** A URDF shape with the given plane normal. *)
Definition plane_with_normal (n : btVector3) : UrdfShape :=
  {| m_linkLocalFrame := Sample.frame;
     m_geometry :=
       {| m_type := URDF_GEOM_PLANE;
          m_sphereRadius := B64.zero;
          m_boxSize := Sample.zero3;
          m_capsuleRadius := B64.zero;
          m_capsuleHeight := B64.zero;
          m_planeNormal := n;
          m_meshFileType := 0;
          m_meshFileName := "";
          m_meshScale := mk_btVector3 B64.one B64.one B64.one;
          m_vertices := [];
          m_uvs := [];
          m_normals := [];
          m_indices := [] |} |}.

(* ===================================================================== *)
(** ** Running [SceneM] *)
(* ===================================================================== *)

Lemma runScene_bind {G A B : Type} (impl : Texture -> G -> Z * G)
    (m : SceneM A) (f : A -> SceneM B) (g : G) :
  runScene impl (bind m f) g =
  let '(a, g') := runScene impl m g in runScene impl (f a) g'.
Proof.
  revert g; induction m as [a | t k IH]; intros g; simpl; [reflexivity |].
  destruct (impl t g) as [id g']. apply IH.
Qed.

Lemma registered_bind {G A B : Type} (impl : Texture -> G -> Z * G)
    (m : SceneM A) (f : A -> SceneM B) (g : G) :
  registered impl (bind m f) g =
  registered impl m g ++
  (let '(a, g') := runScene impl m g in registered impl (f a) g').
Proof.
  revert g; induction m as [a | t k IH]; intros g; simpl; [reflexivity |].
  destruct (impl t g) as [id g']. simpl. f_equal. apply IH.
Qed.

(* ===================================================================== *)
(** ** [getMeshData] *)
(* ===================================================================== *)

Section Loops.
Context {A B : Type}.
Variable f : A -> list B.

(** A loop that appends [f (a[i])] at each index collects [f] over the
    slice it runs through. *)
Lemma for_range_collect (l : list A) (body : nat -> list B -> list B) :
  (forall i acc, body i acc = match l !! i with Some x => acc ++ f x | None => acc end) ->
  forall n i0 acc,
    for_range i0 n body acc = acc ++ concat (map f (take n (drop i0 l))).
Proof.
  intros Hbody. induction n as [| n IH]; intros i0 acc; simpl.
  - rewrite app_nil_r. reflexivity.
  - rewrite IH, Hbody. destruct (l !! i0) as [x |] eqn:Hx.
    + rewrite (drop_S _ _ _ Hx). simpl. rewrite app_assoc. reflexivity.
    + apply lookup_ge_None in Hx.
      rewrite !drop_ge by lia. rewrite !take_nil. reflexivity.
Qed.

Lemma for_range_all (l : list A) (body : nat -> list B -> list B) :
  (forall i acc, body i acc = match l !! i with Some x => acc ++ f x | None => acc end) ->
  for_range 0 (length l) body [] = concat (map f l).
Proof.
  intros Hbody. rewrite (for_range_collect l body Hbody). simpl.
  rewrite drop_0, firstn_all. reflexivity.
Qed.

Variable c : nat.
Hypothesis f_length : forall x, length (f x) = c.

Lemma length_concat_map (l : list A) :
  length (concat (map f l)) = (c * length l)%nat.
Proof.
  induction l as [| x l IH]; simpl; [lia |].
  rewrite length_app, f_length, IH. lia.
Qed.

Lemma lookup_concat_map (l : list A) (i k : nat) (x : A) :
  l !! i = Some x -> (k < c)%nat ->
  concat (map f l) !! (c * i + k)%nat = f x !! k.
Proof.
  revert i; induction l as [| y l IH]; intros i Hi Hk; [discriminate |].
  destruct i as [| i]; simpl in *.
  - injection Hi as ->. rewrite Nat.mul_0_r. simpl.
    apply lookup_app_l. rewrite f_length. exact Hk.
  - rewrite lookup_app_r by (rewrite f_length; lia).
    rewrite f_length.
    replace (c * S i + k - c)%nat with (c * i + k)%nat by lia.
    apply IH; assumption.
Qed.
End Loops.

Lemma getMeshData_vertices (geometry : UrdfGeometry) :
  vertices (getMeshData geometry) = concat (map xyz (m_vertices geometry)).
Proof.
  unfold getMeshData; simpl. apply for_range_all.
  intros i acc. destruct (m_vertices geometry !! i); [| reflexivity].
  unfold push_back, xyz. rewrite <- !app_assoc. reflexivity.
Qed.

Lemma getMeshData_uvs (geometry : UrdfGeometry) :
  uvs (getMeshData geometry) = concat (map xy (m_uvs geometry)).
Proof.
  unfold getMeshData; simpl. apply for_range_all.
  intros i acc. destruct (m_uvs geometry !! i); [| reflexivity].
  unfold push_back, xy. rewrite <- !app_assoc. reflexivity.
Qed.

Lemma getMeshData_normals (geometry : UrdfGeometry) :
  normals (getMeshData geometry) = concat (map xyz (m_normals geometry)).
Proof.
  unfold getMeshData; simpl. apply for_range_all.
  intros i acc. destruct (m_normals geometry !! i); [| reflexivity].
  unfold push_back, xyz. rewrite <- !app_assoc. reflexivity.
Qed.

Lemma getMeshData_indices (geometry : UrdfGeometry) :
  indices (getMeshData geometry) = m_indices geometry.
Proof.
  unfold getMeshData; simpl.
  rewrite (for_range_all (fun x : Z => [x])).
  - induction (m_indices geometry) as [| x l IH]; simpl; [reflexivity |].
    rewrite IH. reflexivity.
  - intros i acc. destruct (m_indices geometry !! i); reflexivity.
Qed.

(** C3. For a geometry with N vertices, M uvs, K normals and L indices,
    [getMeshData] returns arrays of lengths 3N, 2M, 3K and L, in input
    order: output positions 3i, 3i+1, 3i+2 hold the x, y, z of input vertex
    i (narrowed to [float]), positions 2i, 2i+1 the x, y of uv i, likewise
    for the normals, and index i is input index i. *)
Theorem getMeshData_lengths_and_order (geometry : UrdfGeometry) :
  let out := getMeshData geometry in
  length (vertices out) = (3 * length (m_vertices geometry))%nat /\
  length (uvs out) = (2 * length (m_uvs geometry))%nat /\
  length (normals out) = (3 * length (m_normals geometry))%nat /\
  length (indices out) = length (m_indices geometry) /\
  (forall (i : nat) (vertex : btVector3),
      m_vertices geometry !! i = Some vertex ->
      vertices out !! (3 * i)%nat = Some (to_float (v3_x vertex)) /\
      vertices out !! (3 * i + 1)%nat = Some (to_float (v3_y vertex)) /\
      vertices out !! (3 * i + 2)%nat = Some (to_float (v3_z vertex))) /\
  (forall (i : nat) (uv : btVector3),
      m_uvs geometry !! i = Some uv ->
      uvs out !! (2 * i)%nat = Some (to_float (v3_x uv)) /\
      uvs out !! (2 * i + 1)%nat = Some (to_float (v3_y uv))) /\
  (forall (i : nat) (normal : btVector3),
      m_normals geometry !! i = Some normal ->
      normals out !! (3 * i)%nat = Some (to_float (v3_x normal)) /\
      normals out !! (3 * i + 1)%nat = Some (to_float (v3_y normal)) /\
      normals out !! (3 * i + 2)%nat = Some (to_float (v3_z normal))) /\
  (forall i : nat, indices out !! i = m_indices geometry !! i).
Proof.
  intros out; subst out.
  rewrite getMeshData_vertices, getMeshData_uvs, getMeshData_normals,
    getMeshData_indices.
  assert (L3 : forall v, length (xyz v) = 3%nat) by reflexivity.
  assert (L2 : forall v, length (xy v) = 2%nat) by reflexivity.
  repeat split.
  - apply (length_concat_map xyz L3).
  - apply (length_concat_map xy L2).
  - apply (length_concat_map xyz L3).
  - rewrite <- (Nat.add_0_r (3 * i)).
    rewrite (lookup_concat_map xyz L3 _ _ H) by lia. reflexivity.
  - rewrite (lookup_concat_map xyz L3 _ _ H) by lia. reflexivity.
  - rewrite (lookup_concat_map xyz L3 _ _ H) by lia. reflexivity.
  - rewrite <- (Nat.add_0_r (2 * i)).
    rewrite (lookup_concat_map xy L2 _ _ H) by lia. reflexivity.
  - rewrite (lookup_concat_map xy L2 _ _ H) by lia. reflexivity.
  - rewrite <- (Nat.add_0_r (3 * i)).
    rewrite (lookup_concat_map xyz L3 _ _ H) by lia. reflexivity.
  - rewrite (lookup_concat_map xyz L3 _ _ H) by lia. reflexivity.
  - rewrite (lookup_concat_map xyz L3 _ _ H) by lia. reflexivity.
Qed.

(** [getMeshData] on the sample geometry. *)
Example getMeshData_sample :
  getMeshData (Sample.geometry URDF_GEOM_MESH) =
  {| vertices := [S754_zero false;
                  S754_finite false 8388608 (-23);
                  S754_finite false 8388608 (-22);
                  S754_finite false 8388608 (-24);
                  S754_finite false 8388608 (-22);
                  S754_finite false 8388608 (-23)];
     uvs := [S754_zero false; S754_finite false 8388608 (-23)];
     normals := [S754_zero false; S754_zero false; S754_finite false 8388608 (-23)];
     indices := [0; 1; 1] |}.
Proof. vm_compute. reflexivity. Qed.

(* ===================================================================== *)
(** ** Comparisons of scalars *)
(* ===================================================================== *)

Lemma SFcompare_antisym (a b : spec_float) (c : comparison) :
  SFcompare a b = Some c -> SFcompare b a = Some (CompOpp c).
Proof.
  destruct a as [sa | sa | | sa ma ea], b as [sb | sb | | sb mb eb]; simpl;
    try discriminate;
    try (destruct sa; intros [= <-]; reflexivity);
    try (destruct sb; intros [= <-]; reflexivity);
    try (destruct sa, sb; intros [= <-]; reflexivity).
  change (PosDef.Pos.compare_cont Eq ma mb) with (Pos.compare ma mb).
  change (PosDef.Pos.compare_cont Eq mb ma) with (Pos.compare mb ma).
  rewrite (Z.compare_antisym ea eb), (Pos.compare_antisym ma mb).
  destruct sa, sb; intros [= <-]; try reflexivity;
    destruct (ea ?= eb); simpl; try reflexivity;
    destruct (ma ?= mb)%positive; reflexivity.
Qed.

(** [a >= b] excludes [a < b]. *)
Lemma geb_not_ltb (a b : btScalar) : B64.geb a b = true -> B64.ltb a b = false.
Proof.
  unfold B64.geb, B64.ltb, SFleb, SFltb.
  destruct (SFcompare b a) as [c |] eqn:E; [| discriminate].
  rewrite (SFcompare_antisym _ _ E). destruct c; simpl; congruence.
Qed.

(* ===================================================================== *)
(** ** [makeShape] *)
(* ===================================================================== *)

Section MakeShape.
Context `{LM : LinearMath}.
Context {G : Type} (impl : Texture -> G -> Z * G) (g : G).

Ltac run_makeShape :=
  unfold made_shape, graph_after, textures_registered, makeShape;
  rewrite ?runScene_bind, ?registered_bind.

(** C1. The variant tag of the returned Shape is the image of the geometry
    tag (Box to Cube, Sphere to Sphere, Cylinder to Cylinder, Capsule to
    Capsule, Plane to Plane, Mesh to Mesh, Heightfield to Heightfield);
    with any other geometry tag the returned Shape is the default one. *)
Theorem makeShape_variant_tag (urdfShape : UrdfShape) (urdfMaterial : UrdfMaterial)
    (localInertiaFrame : btTransform) (flags : Z) :
  let shape := made_shape impl g urdfShape urdfMaterial localInertiaFrame flags in
  match m_type (m_geometry urdfShape) with
  | URDF_GEOM_BOX => shape_type shape = Some ShapeType.Cube
  | URDF_GEOM_SPHERE => shape_type shape = Some ShapeType.Sphere
  | URDF_GEOM_CYLINDER => shape_type shape = Some ShapeType.Cylinder
  | URDF_GEOM_CAPSULE => shape_type shape = Some ShapeType.Capsule
  | URDF_GEOM_PLANE => shape_type shape = Some ShapeType.Plane
  | URDF_GEOM_MESH => shape_type shape = Some ShapeType.Mesh
  | URDF_GEOM_HEIGHTFIELD => shape_type shape = Some ShapeType.Heightfield
  | URDF_GEOM_CDF | URDF_GEOM_UNKNOWN => shape = Shape_default
  end.
Proof.
  intros shape; subst shape. run_makeShape.
  destruct (runScene impl _ g) as [textureId g'].
  destruct (m_type (m_geometry urdfShape)); reflexivity.
Qed.

(** C5. On a Mesh geometry, when the flag
    [URDF_USE_MATERIAL_COLORS_FROM_MTL] is set in [flags], the returned
    Shape has no material, whatever the colours and the texture of the
    input material. *)
Theorem makeShape_mesh_material_discarded (urdfShape : UrdfShape)
    (urdfMaterial : UrdfMaterial) (localInertiaFrame : btTransform) (flags : Z) :
  m_type (m_geometry urdfShape) = URDF_GEOM_MESH ->
  use_material_colors_from_mtl flags ->
  shape_material (made_shape impl g urdfShape urdfMaterial localInertiaFrame flags)
  = None.
Proof.
  intros Hmesh Hflag. run_makeShape.
  destruct (runScene impl _ g) as [textureId g'].
  rewrite Hmesh; simpl.
  destruct (Z.eqb_spec (Z.land flags URDF_USE_MATERIAL_COLORS_FROM_MTL) 0) as [E | _];
    [contradiction | reflexivity].
Qed.

(** The material stays on every supported shape otherwise, and carries the
    narrowed colours of the input material. *)
Lemma makeShape_material_kept (urdfShape : UrdfShape)
    (urdfMaterial : UrdfMaterial) (localInertiaFrame : btTransform) (flags : Z) :
  supported (m_type (m_geometry urdfShape)) = true ->
  m_type (m_geometry urdfShape) <> URDF_GEOM_MESH \/
    Z.land flags URDF_USE_MATERIAL_COLORS_FROM_MTL = 0 ->
  exists id : Z,
    shape_material (made_shape impl g urdfShape urdfMaterial localInertiaFrame flags)
    = Some {| diffuse :=
                (to_float (v4_0 (m_rgbaColor (m_matColor urdfMaterial))),
                 to_float (v4_1 (m_rgbaColor (m_matColor urdfMaterial))),
                 to_float (v4_2 (m_rgbaColor (m_matColor urdfMaterial))),
                 to_float (v4_3 (m_rgbaColor (m_matColor urdfMaterial))));
              specular :=
                (to_float (v3_x (m_specularColor (m_matColor urdfMaterial))),
                 to_float (v3_y (m_specularColor (m_matColor urdfMaterial))),
                 to_float (v3_z (m_specularColor (m_matColor urdfMaterial))));
              texture_id := id |}.
Proof.
  intros Hsup Hkeep. run_makeShape.
  destruct (runScene impl _ g) as [textureId g']. exists textureId.
  destruct (m_type (m_geometry urdfShape)) eqn:E; try discriminate Hsup;
    simpl; try reflexivity.
  destruct Hkeep as [Hne | ->]; [contradiction | reflexivity].
Qed.

(** C6. With an empty texture filename [registerTexture] is never called
    (nothing is registered, the graph is left as it was) and the Material
    [makeShape] produces holds the texture id -1; with a non-empty filename
    exactly one call is made, for that filename, and the Material holds the
    id the call returned.  The produced Material is the material of the
    returned Shape: it is present, with the narrowed colours of the input and
    that texture id, on every supported geometry tag, except on a Mesh
    whose flags set [URDF_USE_MATERIAL_COLORS_FROM_MTL]; only there and on
    the default Shape is the material absent. *)
Theorem makeShape_registerTexture_calls (urdfShape : UrdfShape)
    (urdfMaterial : UrdfMaterial) (localInertiaFrame : btTransform) (flags : Z) :
  let fname := m_textureFilename urdfMaterial in
  let shape := made_shape impl g urdfShape urdfMaterial localInertiaFrame flags in
  let g' := graph_after impl g urdfShape urdfMaterial localInertiaFrame flags in
  let calls :=
    textures_registered impl g urdfShape urdfMaterial localInertiaFrame flags in
  let d := m_rgbaColor (m_matColor urdfMaterial) in
  let s := m_specularColor (m_matColor urdfMaterial) in
  let produced (textureId : Z) : Material :=
    {| diffuse :=
         (to_float (v4_0 d), to_float (v4_1 d), to_float (v4_2 d), to_float (v4_3 d));
       specular := (to_float (v3_x s), to_float (v3_y s), to_float (v3_z s));
       texture_id := textureId |} in
  let stored (textureId : Z) : Prop :=
    shape_material shape =
    match m_type (m_geometry urdfShape) with
    | URDF_GEOM_CDF | URDF_GEOM_UNKNOWN => None
    | URDF_GEOM_MESH =>
        if Z.land flags URDF_USE_MATERIAL_COLORS_FROM_MTL =? 0
        then Some (produced textureId) else None
    | _ => Some (produced textureId)
    end in
  if empty fname then
    calls = [] /\ g' = g /\ stored (-1)
  else
    calls = [mk_Texture fname] /\ g' = snd (impl (mk_Texture fname) g) /\
    stored (fst (impl (mk_Texture fname) g)).
Proof.
  intros fname shape g' calls d s produced stored.
  subst fname shape g' calls stored produced d s. run_makeShape.
  destruct (empty (m_textureFilename urdfMaterial)); simpl.
  - destruct (m_type (m_geometry urdfShape)); simpl;
      (split; [reflexivity | split; [reflexivity |]]); try reflexivity.
    destruct (Z.land flags URDF_USE_MATERIAL_COLORS_FROM_MTL =? 0); reflexivity.
  - destruct (impl (mk_Texture (m_textureFilename urdfMaterial)) g) as [id g1];
      simpl.
    destruct (m_type (m_geometry urdfShape)); simpl;
      (split; [reflexivity | split; [reflexivity |]]); try reflexivity.
    destruct (Z.land flags URDF_USE_MATERIAL_COLORS_FROM_MTL =? 0); reflexivity.
Qed.

(** C7. On a Plane geometry: when the dot product of the plane normal with
    the up-axis (0,0,1) is at least 0.99, and in particular when the normal
    is (0,0,1), no rotation is composed and the pose is the pose of the input
    frame; when the dot product is below 0.99, and in particular when the
    normal is (1,0,0), the frame is composed with the rotation whose axis is
    the cross product of the normal and the up-axis and whose angle is the
    arcsine of the length of that axis; for the normal (1,0,0) the axis is
    (0,-1,0) and its length is 1. *)
Theorem makeShape_plane_rotation (urdfShape : UrdfShape)
    (urdfMaterial : UrdfMaterial) (localInertiaFrame : btTransform) (flags : Z) :
  m_type (m_geometry urdfShape) = URDF_GEOM_PLANE ->
  let n := m_planeNormal (m_geometry urdfShape) in
  let z := mk_btVector3 B64.zero B64.zero B64.one in
  let frame := link_frame urdfShape localInertiaFrame in
  let axis := Vec3.cross n z in
  let rotation :=
    btTransform_of_quat (btQuaternion_axis_angle axis (btAsin (Vec3.length axis))) in
  let ones := mk_btVector3 B64.one B64.one B64.one in
  let pose :=
    shape_pose (made_shape impl g urdfShape urdfMaterial localInertiaFrame flags) in
  (B64.geb (Vec3.dot n z) B64.c0_99 = true -> pose = Some (makePose frame ones)) /\
  (n = z -> pose = Some (makePose frame ones)) /\
  (B64.ltb (Vec3.dot n z) B64.c0_99 = true ->
   pose = Some (makePose (btTransform_mul frame rotation) ones)) /\
  (n = mk_btVector3 B64.one B64.zero B64.zero ->
   axis = mk_btVector3 B64.zero (SFopp B64.one) B64.zero /\
   Vec3.length axis = B64.one /\
   pose = Some (makePose (btTransform_mul frame rotation) ones)).
Proof.
  intros Hplane n z frame axis rotation ones pose.
  assert (Hpose : pose = Some (makePose
            (if B64.ltb (Vec3.dot n z) B64.c0_99
             then btTransform_mul frame rotation else frame) ones)).
  { subst pose. run_makeShape.
    destruct (runScene impl _ g) as [textureId g'].
    rewrite Hplane; simpl. reflexivity. }
  rewrite Hpose. split; [| split; [| split]].
  - intros Hge. rewrite (geb_not_ltb _ _ Hge). reflexivity.
  - intros Hn. rewrite Hn. reflexivity.
  - intros Hlt. rewrite Hlt. reflexivity.
  - intros Hn. subst rotation axis. rewrite Hn.
    split; [| split]; reflexivity.
Qed.

(** C8. On a Cylinder and on a Capsule geometry alike, the scale of the pose
    is (capsuleRadius, capsuleRadius, capsuleHeight), narrowed to [float]. *)
Theorem makeShape_cylinder_capsule_scale (urdfShape : UrdfShape)
    (urdfMaterial : UrdfMaterial) (localInertiaFrame : btTransform) (flags : Z) :
  m_type (m_geometry urdfShape) = URDF_GEOM_CYLINDER \/
  m_type (m_geometry urdfShape) = URDF_GEOM_CAPSULE ->
  scale <$> shape_pose
              (made_shape impl g urdfShape urdfMaterial localInertiaFrame flags)
  = Some (to_float (m_capsuleRadius (m_geometry urdfShape)),
          to_float (m_capsuleRadius (m_geometry urdfShape)),
          to_float (m_capsuleHeight (m_geometry urdfShape))).
Proof.
  intros Htag. run_makeShape.
  destruct (runScene impl _ g) as [textureId g'].
  destruct Htag as [-> | ->]; reflexivity.
Qed.

(** C10. With a non-empty texture filename, [registerTexture] is the first
    thing [makeShape] does, before the dispatch on the geometry tag, and it
    is done whatever the tag and the flags: exactly that texture is
    registered and the graph is the one the call leaves; so also when the
    tag is unsupported and the default Shape is returned, and when on a Mesh
    the flag discards the material holding the id. *)
Theorem makeShape_registers_before_dispatch (urdfShape : UrdfShape)
    (urdfMaterial : UrdfMaterial) (localInertiaFrame : btTransform) (flags : Z) :
  empty (m_textureFilename urdfMaterial) = false ->
  let texture := mk_Texture (m_textureFilename urdfMaterial) in
  let shape := made_shape impl g urdfShape urdfMaterial localInertiaFrame flags in
  (exists k : Z -> SceneM Shape,
      makeShape urdfShape urdfMaterial localInertiaFrame flags
      = RegisterTexture texture k) /\
  textures_registered impl g urdfShape urdfMaterial localInertiaFrame flags
  = [texture] /\
  graph_after impl g urdfShape urdfMaterial localInertiaFrame flags
  = snd (impl texture g) /\
  (supported (m_type (m_geometry urdfShape)) = false ->
   shape = Shape_default /\ shape_material shape = None) /\
  (m_type (m_geometry urdfShape) = URDF_GEOM_MESH ->
   use_material_colors_from_mtl flags ->
   shape_type shape = Some ShapeType.Mesh /\ shape_material shape = None).
Proof.
  intros Hfname texture shape.
  split; [| split; [| split; [| split]]].
  - unfold makeShape. rewrite Hfname. simpl. eexists. reflexivity.
  - run_makeShape. rewrite Hfname. simpl.
    destruct (impl _ g) as [id g1]; simpl.
    destruct (m_type (m_geometry urdfShape)); reflexivity.
  - run_makeShape. rewrite Hfname. simpl. fold texture.
    destruct (impl texture g) as [id g1]; simpl.
    destruct (m_type (m_geometry urdfShape)); reflexivity.
  - intros Hsup. subst shape. run_makeShape.
    destruct (runScene impl _ g) as [textureId g1].
    destruct (m_type (m_geometry urdfShape)); try discriminate Hsup;
      split; reflexivity.
  - intros Hmesh Hflag. subst shape. run_makeShape.
    destruct (runScene impl _ g) as [textureId g1].
    rewrite Hmesh; simpl. split; [reflexivity |].
    destruct (Z.eqb_spec (Z.land flags URDF_USE_MATERIAL_COLORS_FROM_MTL) 0);
      [contradiction | reflexivity].
Qed.

End MakeShape.


(** A texture filename, a graph that already holds one texture, and the
    flag value that sets the material bit. *)
Example makeShape_sample_run :
  runScene Sample.counter_graph
    (makeShape (LM := Sample.math) (Sample.shape URDF_GEOM_UNKNOWN)
               (Sample.material "wood.png") Sample.frame 0)
    [mk_Texture "brick.png"]
  = (Shape_default, [mk_Texture "brick.png"; mk_Texture "wood.png"]).
Proof. reflexivity. Qed.

Lemma makeShape_mesh_material_discarded_witness :
  shape_material
    (made_shape (LM := Sample.math) Sample.counter_graph []
       (Sample.shape URDF_GEOM_MESH) (Sample.material "wood.png") Sample.frame 32768)
  = None.
Proof.
  apply (makeShape_mesh_material_discarded (LM := Sample.math)).
  - reflexivity.
  - intros H. vm_compute in H. discriminate H.
Defined.

Lemma makeShape_plane_rotation_witness :
  shape_pose
    (made_shape (LM := Sample.math) Sample.counter_graph []
       (Sample.shape URDF_GEOM_PLANE) (Sample.material "") Sample.frame 0)
  = Some (makePose (LM := Sample.math)
            (@btTransform_mul Sample.math
               (link_frame (LM := Sample.math) (Sample.shape URDF_GEOM_PLANE)
                  Sample.frame)
               (@btTransform_of_quat Sample.math
                  (@btQuaternion_axis_angle Sample.math
                     (mk_btVector3 B64.zero (SFopp B64.one) B64.zero)
                     (@btAsin Sample.math B64.one))))
            (mk_btVector3 B64.one B64.one B64.one)).
Proof.
  exact (proj2 (proj2
           (proj2 (proj2 (proj2
              (makeShape_plane_rotation (LM := Sample.math) Sample.counter_graph []
                 (Sample.shape URDF_GEOM_PLANE) (Sample.material "") Sample.frame 0
                 eq_refl))) eq_refl))).
Defined.

Lemma makeShape_cylinder_capsule_scale_witness :
  scale <$> shape_pose
    (made_shape (LM := Sample.math) Sample.counter_graph []
       (Sample.shape URDF_GEOM_CYLINDER) (Sample.material "") Sample.frame 0)
  = scale <$> shape_pose
    (made_shape (LM := Sample.math) Sample.counter_graph []
       (Sample.shape URDF_GEOM_CAPSULE) (Sample.material "") Sample.frame 0).
Proof.
  rewrite (makeShape_cylinder_capsule_scale (LM := Sample.math)
             Sample.counter_graph [] (Sample.shape URDF_GEOM_CYLINDER)
             (Sample.material "") Sample.frame 0 (or_introl eq_refl)).
  rewrite (makeShape_cylinder_capsule_scale (LM := Sample.math)
             Sample.counter_graph [] (Sample.shape URDF_GEOM_CAPSULE)
             (Sample.material "") Sample.frame 0 (or_intror eq_refl)).
  reflexivity.
Defined.

Lemma makeShape_registers_before_dispatch_witness :
  textures_registered (LM := Sample.math) Sample.counter_graph []
    (Sample.shape URDF_GEOM_UNKNOWN) (Sample.material "wood.png") Sample.frame 0
  = [mk_Texture "wood.png"].
Proof.
  apply (makeShape_registers_before_dispatch (LM := Sample.math)
           Sample.counter_graph [] (Sample.shape URDF_GEOM_UNKNOWN)
           (Sample.material "wood.png") Sample.frame 0).
  reflexivity.
Defined.

(** On a Box with the texture "wood.png", registered on a graph that holds
    one texture already: one call, and the material of the Shape is there
    with the id 1 the call returned. *)
Lemma makeShape_registerTexture_calls_witness :
  textures_registered (LM := Sample.math) Sample.counter_graph
    [mk_Texture "brick.png"] (Sample.shape URDF_GEOM_BOX)
    (Sample.material "wood.png") Sample.frame 0
  = [mk_Texture "wood.png"] /\
  graph_after (LM := Sample.math) Sample.counter_graph
    [mk_Texture "brick.png"] (Sample.shape URDF_GEOM_BOX)
    (Sample.material "wood.png") Sample.frame 0
  = [mk_Texture "brick.png"; mk_Texture "wood.png"] /\
  shape_material
    (made_shape (LM := Sample.math) Sample.counter_graph
       [mk_Texture "brick.png"] (Sample.shape URDF_GEOM_BOX)
       (Sample.material "wood.png") Sample.frame 0)
  = Some {| diffuse := (float_one, S754_finite false 8388608 (-24),
                        S754_finite false 8388608 (-24), float_one);
            specular := (S754_finite false 8388608 (-24),
                         S754_finite false 8388608 (-24),
                         S754_finite false 8388608 (-24));
            texture_id := 1 |}.
Proof.
  exact (makeShape_registerTexture_calls (LM := Sample.math) Sample.counter_graph
           [mk_Texture "brick.png"] (Sample.shape URDF_GEOM_BOX)
           (Sample.material "wood.png") Sample.frame 0).
Defined.

(** With an empty filename on the same graph: no call, the graph is left
    alone, and the material is there with the id -1. *)
Example makeShape_empty_filename_sample :
  textures_registered (LM := Sample.math) Sample.counter_graph
    [mk_Texture "brick.png"] (Sample.shape URDF_GEOM_SPHERE)
    (Sample.material "") Sample.frame 0
  = [] /\
  graph_after (LM := Sample.math) Sample.counter_graph
    [mk_Texture "brick.png"] (Sample.shape URDF_GEOM_SPHERE)
    (Sample.material "") Sample.frame 0
  = [mk_Texture "brick.png"] /\
  texture_id <$>
    shape_material
      (made_shape (LM := Sample.math) Sample.counter_graph
         [mk_Texture "brick.png"] (Sample.shape URDF_GEOM_SPHERE)
         (Sample.material "") Sample.frame 0)
  = Some (-1).
Proof. repeat split. Qed.

(** The plane normal (1,0,0): its dot product with the up-axis is +0, below
    0.99; the rotation axis is (0,-1,0), of length 1. *)
Example plane_normal_x :
  let n := mk_btVector3 B64.one B64.zero B64.zero in
  let z := mk_btVector3 B64.zero B64.zero B64.one in
  Vec3.dot n z = B64.zero /\
  B64.ltb (Vec3.dot n z) B64.c0_99 = true /\
  Vec3.cross n z = mk_btVector3 B64.zero (SFopp B64.one) B64.zero /\
  Vec3.length (Vec3.cross n z) = B64.one.
Proof. vm_compute. repeat split. Qed.

(** The plane normal (0,0,1): its dot product with the up-axis is 1. *)
Example plane_normal_z :
  let z := mk_btVector3 B64.zero B64.zero B64.one in
  Vec3.dot z z = B64.one /\ B64.geb (Vec3.dot z z) B64.c0_99 = true.
Proof. vm_compute. split; reflexivity. Qed.

(* ===================================================================== *)
(** ** [strncpy] *)
(* ===================================================================== *)

(** [strncpy] stores exactly [n] bytes. *)
Lemma strncpy_length (src : list ascii) (n : nat) : length (strncpy src n) = n.
Proof.
  revert src; induction n as [| n IH]; intros src; [reflexivity |].
  destruct src as [| c src]; simpl.
  - rewrite repeat_length. reflexivity.
  - destruct (Ascii.eqb c NUL); simpl.
    + rewrite repeat_length. reflexivity.
    + rewrite IH. reflexivity.
Qed.

(** A source with no NUL among its first [n] bytes is copied without a
    terminator. *)
Lemma strncpy_truncates (pre rest : list ascii) (n : nat) :
  Forall (fun c => c <> NUL) pre -> (n <= length pre)%nat ->
  strncpy (pre ++ rest) n = take n pre.
Proof.
  revert pre; induction n as [| n IH]; intros pre Hpre Hn; [reflexivity |].
  destruct pre as [| c pre]; simpl in *; [lia |].
  inversion Hpre as [| ? ? Hc Hpre']; subst.
  destruct (Ascii.eqb_spec c NUL) as [-> | _]; [contradiction |].
  f_equal. apply IH; [assumption | lia].
Qed.

(** A source shorter than [n] is copied whole and padded with NUL. *)
Lemma strncpy_pads (pre rest : list ascii) (n : nat) :
  Forall (fun c => c <> NUL) pre -> (length pre < n)%nat ->
  strncpy (pre ++ NUL :: rest) n = pre ++ repeat NUL (n - length pre).
Proof.
  revert pre; induction n as [| n IH]; intros pre Hpre Hn; [lia |].
  destruct pre as [| c pre]; simpl in *; [reflexivity |].
  inversion Hpre as [| ? ? Hc Hpre']; subst.
  destruct (Ascii.eqb_spec c NUL) as [-> | _]; [contradiction |].
  f_equal. apply IH; [assumption | lia].
Qed.

Lemma take_repeat_S {A : Type} (x : A) (n : nat) :
  take n (repeat x (S n)) = repeat x n.
Proof. induction n as [| n IH]; [reflexivity |]. simpl in *. rewrite IH. reflexivity. Qed.

Lemma Forall_repeat {A : Type} (P : A -> Prop) (x : A) (n : nat) :
  P x -> Forall P (repeat x n).
Proof. intros Hx. induction n; simpl; constructor; assumption. Qed.

Lemma length_string_of_list_ascii (l : list ascii) :
  String.length (string_of_list_ascii l) = length l.
Proof. induction l as [| c l IH]; simpl; [reflexivity | rewrite IH; reflexivity]. Qed.

Lemma list_ascii_of_repeat (c : ascii) (n : nat) :
  list_ascii_of_string (string_of_list_ascii (repeat c n)) = repeat c n.
Proof. apply list_ascii_of_string_of_list_ascii. Qed.

(* ===================================================================== *)
(** ** [makeVisualShapeData] *)
(* ===================================================================== *)

Section MakeVisualShapeData.
Context `{LM : LinearMath}.
Variables (urdfShape : UrdfShape) (urdfMaterial : UrdfMaterial).
Variables (localInertiaFrame : btTransform) (bodyUniqueId linkIndex : Z).

(** The filename field is written over its whole capacity and not beyond:
    exactly [VISUAL_SHAPE_MAX_PATH_LEN] bytes are stored. *)
Lemma makeVisualShapeData_filename_length :
  length (b3.m_meshAssetFileName
            (makeVisualShapeData urdfShape urdfMaterial localInertiaFrame
               bodyUniqueId linkIndex))
  = VISUAL_SHAPE_MAX_PATH_LEN.
Proof. simpl. apply strncpy_length. Qed.

(** A filename with no NUL among its first [VISUAL_SHAPE_MAX_PATH_LEN]
    characters fills the field with those characters: no byte of the field
    is a terminator. *)
Lemma makeVisualShapeData_filename_truncated :
  let fname := list_ascii_of_string (m_textureFilename urdfMaterial) in
  (VISUAL_SHAPE_MAX_PATH_LEN <= length fname)%nat ->
  Forall (fun c => c <> NUL) fname ->
  let field :=
    b3.m_meshAssetFileName
      (makeVisualShapeData urdfShape urdfMaterial localInertiaFrame
         bodyUniqueId linkIndex) in
  field = take VISUAL_SHAPE_MAX_PATH_LEN fname /\ Forall (fun c => c <> NUL) field.
Proof.
  intros fname Hlen Hnul field. subst field. simpl. unfold c_str.
  fold fname. rewrite (strncpy_truncates _ Hnul Hlen).
  split; [reflexivity |]. apply Forall_take. exact Hnul.
Qed.

(** A filename shorter than the capacity, with no NUL inside, is stored
    whole, followed by NUL up to the capacity. *)
Lemma makeVisualShapeData_filename_terminated :
  let fname := list_ascii_of_string (m_textureFilename urdfMaterial) in
  (length fname < VISUAL_SHAPE_MAX_PATH_LEN)%nat ->
  Forall (fun c => c <> NUL) fname ->
  b3.m_meshAssetFileName
    (makeVisualShapeData urdfShape urdfMaterial localInertiaFrame
       bodyUniqueId linkIndex)
  = fname ++ repeat NUL (VISUAL_SHAPE_MAX_PATH_LEN - length fname).
Proof.
  intros fname Hlen Hnul. simpl. unfold c_str. fold fname.
  apply strncpy_pads; assumption.
Qed.

(** C2, at a filename one character longer than the capacity
    [VISUAL_SHAPE_MAX_PATH_LEN]: the field holds [VISUAL_SHAPE_MAX_PATH_LEN]
    bytes, the write stays within the capacity, and none of the bytes is a
    NUL: the field is not null-terminated. *)
Theorem makeVisualShapeData_long_filename_unterminated :
  let fname := string_of_list_ascii (repeat "a"%char (S VISUAL_SHAPE_MAX_PATH_LEN)) in
  let field :=
    b3.m_meshAssetFileName
      (makeVisualShapeData urdfShape
         {| m_textureFilename := fname; m_matColor := m_matColor urdfMaterial |}
         localInertiaFrame bodyUniqueId linkIndex) in
  String.length fname = S VISUAL_SHAPE_MAX_PATH_LEN /\
  field = repeat "a"%char VISUAL_SHAPE_MAX_PATH_LEN /\
  length field = VISUAL_SHAPE_MAX_PATH_LEN /\
  Forall (fun c => c <> NUL) field.
Proof.
  intros fname field.
  assert (Hfield : field = repeat "a"%char VISUAL_SHAPE_MAX_PATH_LEN).
  { subst field fname. unfold makeVisualShapeData, c_str.
    cbn [b3.m_meshAssetFileName m_textureFilename].
    rewrite list_ascii_of_repeat.
    rewrite strncpy_truncates.
    - apply take_repeat_S.
    - apply Forall_repeat. discriminate.
    - rewrite repeat_length. lia. }
  split; [| split; [exact Hfield | split]].
  - subst fname. rewrite length_string_of_list_ascii. apply repeat_length.
  - rewrite Hfield. apply repeat_length.
  - rewrite Hfield. apply Forall_repeat. discriminate.
Qed.

(** C4. The three slots of [m_dimensions] all hold the first component of
    the mesh scale, whatever the geometry type and the other two
    components. *)
Theorem makeVisualShapeData_dimensions :
  b3.m_dimensions
    (makeVisualShapeData urdfShape urdfMaterial localInertiaFrame
       bodyUniqueId linkIndex)
  = [v3_x (m_meshScale (m_geometry urdfShape));
     v3_x (m_meshScale (m_geometry urdfShape));
     v3_x (m_meshScale (m_geometry urdfShape))].
Proof. reflexivity. Qed.

(** C9. The three texture ids are -1, whatever the input. *)
Theorem makeVisualShapeData_texture_ids :
  let out := makeVisualShapeData urdfShape urdfMaterial localInertiaFrame
               bodyUniqueId linkIndex in
  b3.m_textureUniqueId out = -1 /\
  b3.m_openglTextureId out = -1 /\
  b3.m_tinyRendererTextureId out = -1.
Proof. repeat split. Qed.

End MakeVisualShapeData.

(* ===================================================================== *)
(** ** The filename field of [makeVisualShapeData], in full *)
(* ===================================================================== *)

Lemma c_string_no_NUL (buf : list ascii) : Forall (fun c => c <> NUL) (c_string buf).
Proof.
  induction buf as [| c buf IH]; simpl; [constructor |].
  destruct (Ascii.eqb_spec c NUL); constructor; assumption.
Qed.

Lemma c_string_id (l : list ascii) : Forall (fun c => c <> NUL) l -> c_string l = l.
Proof.
  induction 1 as [| c l Hc _ IH]; simpl; [reflexivity |].
  destruct (Ascii.eqb_spec c NUL); [contradiction | rewrite IH; reflexivity].
Qed.

Lemma c_string_terminated (l rest : list ascii) :
  c_string (l ++ NUL :: rest) = c_string l.
Proof.
  induction l as [| c l IH]; simpl; [reflexivity |].
  destruct (Ascii.eqb c NUL); [reflexivity | rewrite IH; reflexivity].
Qed.

Lemma c_string_padded (p : list ascii) (k : nat) :
  Forall (fun c => c <> NUL) p -> c_string (p ++ repeat NUL k) = p.
Proof.
  induction 1 as [| c p Hc _ IH]; simpl.
  - destruct k; reflexivity.
  - destruct (Ascii.eqb_spec c NUL); [contradiction | rewrite IH; reflexivity].
Qed.

(** [strncpy] in closed form: the first [n] bytes of the source string, then
    NUL up to [n]. *)
Lemma strncpy_c_string (src : list ascii) (n : nat) :
  strncpy src n
  = take n (c_string src) ++ repeat NUL (n - length (c_string src)).
Proof.
  revert src; induction n as [| n IH]; intros src; [reflexivity |].
  destruct src as [| c src]; [reflexivity |].
  simpl. destruct (Ascii.eqb c NUL); [reflexivity |].
  simpl. rewrite IH. reflexivity.
Qed.

Lemma In_repeat_iff {A : Type} (x : A) (n : nat) : In x (repeat x n) <-> (0 < n)%nat.
Proof.
  destruct n; simpl; split; intros H; try lia; try contradiction. left; reflexivity.
Qed.

Section FilenameField.
Context `{LM : LinearMath}.
Variables (urdfShape : UrdfShape) (urdfMaterial : UrdfMaterial).
Variables (localInertiaFrame : btTransform) (bodyUniqueId linkIndex : Z).

(** For every input, the filename field holds the characters of the texture
    filename that come before its first NUL, cut at the capacity
    [VISUAL_SHAPE_MAX_PATH_LEN], then NUL bytes up to the capacity. *)
Theorem makeVisualShapeData_filename_field :
  let name := c_string (list_ascii_of_string (m_textureFilename urdfMaterial)) in
  b3.m_meshAssetFileName
    (makeVisualShapeData urdfShape urdfMaterial localInertiaFrame
       bodyUniqueId linkIndex)
  = take VISUAL_SHAPE_MAX_PATH_LEN name
    ++ repeat NUL (VISUAL_SHAPE_MAX_PATH_LEN - length name).
Proof.
  intros name. subst name. unfold makeVisualShapeData, c_str.
  cbn [b3.m_meshAssetFileName].
  rewrite strncpy_c_string, c_string_terminated.
  reflexivity.
Qed.

(** The field holds a NUL exactly when the filename, up to its first NUL, is
    shorter than the capacity. *)
Theorem makeVisualShapeData_filename_terminated_iff :
  let name := c_string (list_ascii_of_string (m_textureFilename urdfMaterial)) in
  In NUL (b3.m_meshAssetFileName
            (makeVisualShapeData urdfShape urdfMaterial localInertiaFrame
               bodyUniqueId linkIndex))
  <-> (length name < VISUAL_SHAPE_MAX_PATH_LEN)%nat.
Proof.
  intros name. unfold makeVisualShapeData, c_str.
  cbn [b3.m_meshAssetFileName].
  rewrite strncpy_c_string, c_string_terminated. fold name.
  rewrite in_app_iff, In_repeat_iff. split.
  - intros [Hin | Hpad]; [| lia].
    exfalso. apply list_elem_of_In in Hin.
    assert (Hname : Forall (fun c => c <> NUL)
                      (take VISUAL_SHAPE_MAX_PATH_LEN name))
      by (apply Forall_take, c_string_no_NUL).
    rewrite Forall_forall in Hname. exact (Hname _ Hin eq_refl).
  - intros Hlt. right. lia.
Qed.

(** Round trip: a texture filename shorter than the capacity and without a
    NUL inside is read back from the field, as a C string, unchanged. *)
Theorem makeVisualShapeData_filename_round_trip :
  (String.length (m_textureFilename urdfMaterial) < VISUAL_SHAPE_MAX_PATH_LEN)%nat ->
  Forall (fun c => c <> NUL) (list_ascii_of_string (m_textureFilename urdfMaterial)) ->
  string_of_list_ascii
    (c_string (b3.m_meshAssetFileName
                 (makeVisualShapeData urdfShape urdfMaterial localInertiaFrame
                    bodyUniqueId linkIndex)))
  = m_textureFilename urdfMaterial.
Proof.
  intros Hlen Hnul. unfold makeVisualShapeData, c_str.
  cbn [b3.m_meshAssetFileName].
  rewrite strncpy_c_string, c_string_terminated.
  rewrite (c_string_id Hnul).
  assert (Hchars : length (list_ascii_of_string (m_textureFilename urdfMaterial))
                   = String.length (m_textureFilename urdfMaterial)).
  { rewrite <- length_string_of_list_ascii, string_of_list_ascii_of_string.
    reflexivity. }
  rewrite take_ge by lia.
  rewrite (c_string_padded _ Hnul).
  apply string_of_list_ascii_of_string.
Qed.

End FilenameField.

(* ===================================================================== *)
(** ** What [makeVisualShapeData] reads *)
(* ===================================================================== *)

(** Of the shape, [makeVisualShapeData] reads the geometry type and the
    first component of the mesh scale, and of the material the RGBA colour
    and the texture filename: two shapes and two materials that agree on
    these give the same struct, whatever their link frames, sizes, radii,
    meshes and specular colours. *)
Theorem makeVisualShapeData_reads_only `{LM : LinearMath}
    (shape1 shape2 : UrdfShape) (material1 material2 : UrdfMaterial)
    (localInertiaFrame : btTransform) (bodyUniqueId linkIndex : Z) :
  m_type (m_geometry shape1) = m_type (m_geometry shape2) ->
  v3_x (m_meshScale (m_geometry shape1)) = v3_x (m_meshScale (m_geometry shape2)) ->
  m_rgbaColor (m_matColor material1) = m_rgbaColor (m_matColor material2) ->
  m_textureFilename material1 = m_textureFilename material2 ->
  makeVisualShapeData shape1 material1 localInertiaFrame bodyUniqueId linkIndex
  = makeVisualShapeData shape2 material2 localInertiaFrame bodyUniqueId linkIndex.
Proof.
  intros Htype Hscale Hrgba Hname. unfold makeVisualShapeData.
  rewrite Htype, Hscale, Hrgba, Hname. reflexivity.
Qed.

Lemma makeVisualShapeData_reads_only_witness :
  makeVisualShapeData (LM := Sample.math) (Sample.shape URDF_GEOM_BOX)
    (Sample.material "wood.png") Sample.frame 7 2
  = makeVisualShapeData (LM := Sample.math)
      {| m_linkLocalFrame :=
           mk_btTransform Sample.identity_basis
             (mk_btVector3 B64.one Sample.two Sample.half);
         m_geometry :=
           {| m_type := URDF_GEOM_BOX;
              m_sphereRadius := Sample.two;
              m_boxSize := mk_btVector3 Sample.half Sample.half Sample.half;
              m_capsuleRadius := B64.one;
              m_capsuleHeight := B64.one;
              m_planeNormal := mk_btVector3 B64.zero B64.zero B64.one;
              m_meshFileType := 3;
              m_meshFileName := "cube.obj";
              m_meshScale := mk_btVector3 Sample.two Sample.two Sample.two;
              m_vertices := [];
              m_uvs := [];
              m_normals := [];
              m_indices := [] |} |}
      {| m_textureFilename := "wood.png";
         m_matColor :=
           {| m_rgbaColor := mk_btVector4 B64.one Sample.half Sample.half B64.one;
              m_specularColor := mk_btVector3 B64.one B64.one B64.one |} |}
      Sample.frame 7 2.
Proof.
  apply (makeVisualShapeData_reads_only (LM := Sample.math)); reflexivity.
Defined.

(** [makePose] and [makeVisualShapeData] store the same seven numbers of a
    transform in different orders: the struct has the origin, then the
    rotation as (x, y, z, w), in double precision; the pose has the origin
    and the rotation as (w, x, y, z), each narrowed to [float]. *)
Theorem makePose_matches_localVisualFrame `{LM : LinearMath}
    (urdfShape : UrdfShape) (urdfMaterial : UrdfMaterial)
    (frame : btTransform) (bodyUniqueId linkIndex : Z) (scale3 : btVector3) :
  exists ox oy oz qx qy qz qw : double,
    b3.m_localVisualFrame
      (makeVisualShapeData urdfShape urdfMaterial frame bodyUniqueId linkIndex)
    = [ox; oy; oz; qx; qy; qz; qw] /\
    origin (makePose frame scale3) = (to_float ox, to_float oy, to_float oz) /\
    quat (makePose frame scale3)
    = (to_float qw, to_float qx, to_float qy, to_float qz).
Proof. repeat eexists. Qed.

(* ===================================================================== *)
(** ** More on [makeShape] *)
(* ===================================================================== *)

Lemma SFadd_nan_r (x : spec_float) : B64.add x S754_nan = S754_nan.
Proof. destruct x; reflexivity. Qed.

Lemma SFmul_nan_l (x : spec_float) : B64.mul S754_nan x = S754_nan.
Proof. reflexivity. Qed.

Section MakeShapeMore.
Context `{LM : LinearMath}.
Context {G : Type} (impl : Texture -> G -> Z * G) (g : G).
Variables (urdfShape : UrdfShape) (urdfMaterial : UrdfMaterial).
Variables (localInertiaFrame : btTransform) (flags : Z).

Ltac run_shape :=
  unfold made_shape, graph_after, textures_registered, makeShape;
  rewrite ?runScene_bind, ?registered_bind;
  destruct (runScene impl _ g) as [textureId g'].

(** The pose of a Plane shape, with the test on the normal left open. *)
Lemma makeShape_plane_pose :
  m_type (m_geometry urdfShape) = URDF_GEOM_PLANE ->
  let n := m_planeNormal (m_geometry urdfShape) in
  let z := mk_btVector3 B64.zero B64.zero B64.one in
  let frame := link_frame urdfShape localInertiaFrame in
  let axis := Vec3.cross n z in
  shape_pose (made_shape impl g urdfShape urdfMaterial localInertiaFrame flags)
  = Some (makePose
            (if B64.ltb (Vec3.dot n z) B64.c0_99
             then btTransform_mul frame
                    (btTransform_of_quat
                       (btQuaternion_axis_angle axis (btAsin (Vec3.length axis))))
             else frame)
            (mk_btVector3 B64.one B64.one B64.one)).
Proof.
  intros Hplane n z frame axis. run_shape. rewrite Hplane. reflexivity.
Qed.

(** The pose of the Shape, by geometry tag: the pose of the link frame
    [localInertiaFrame.inverse() * m_linkLocalFrame], scaled by the box size
    (Box), the radius three times (Sphere), radius, radius and height
    (Cylinder, Capsule), the mesh scale (Mesh) or (1,1,1) (Heightfield); on
    a Plane the link frame, rotated when the normal fails the 0.99 test,
    scaled by (1,1,1); the default Shape has no pose. *)
Theorem makeShape_pose_by_type :
  let frame := link_frame urdfShape localInertiaFrame in
  let geometry := m_geometry urdfShape in
  let pose :=
    shape_pose (made_shape impl g urdfShape urdfMaterial localInertiaFrame flags) in
  match m_type geometry with
  | URDF_GEOM_BOX => pose = Some (makePose frame (m_boxSize geometry))
  | URDF_GEOM_SPHERE =>
      pose = Some (makePose frame
                     (mk_btVector3 (m_sphereRadius geometry) (m_sphereRadius geometry)
                        (m_sphereRadius geometry)))
  | URDF_GEOM_CYLINDER | URDF_GEOM_CAPSULE =>
      pose = Some (makePose frame
                     (mk_btVector3 (m_capsuleRadius geometry)
                        (m_capsuleRadius geometry) (m_capsuleHeight geometry)))
  | URDF_GEOM_MESH => pose = Some (makePose frame (m_meshScale geometry))
  | URDF_GEOM_HEIGHTFIELD =>
      pose = Some (makePose frame (mk_btVector3 B64.one B64.one B64.one))
  | URDF_GEOM_PLANE =>
      let z := mk_btVector3 B64.zero B64.zero B64.one in
      let axis := Vec3.cross (m_planeNormal geometry) z in
      pose = Some (makePose
                     (if B64.ltb (Vec3.dot (m_planeNormal geometry) z) B64.c0_99
                      then btTransform_mul frame
                             (btTransform_of_quat
                                (btQuaternion_axis_angle axis
                                   (btAsin (Vec3.length axis))))
                      else frame)
                     (mk_btVector3 B64.one B64.one B64.one))
  | URDF_GEOM_CDF | URDF_GEOM_UNKNOWN => pose = None
  end.
Proof.
  intros frame geometry pose. subst pose geometry.
  run_shape. destruct (m_type (m_geometry urdfShape)); reflexivity.
Qed.

(** A Plane and a Heightfield shape have the scale (1, 1, 1) in single
    precision, whatever the mesh scale, the normal and the frames. *)
Theorem makeShape_unit_scale :
  m_type (m_geometry urdfShape) = URDF_GEOM_PLANE \/
  m_type (m_geometry urdfShape) = URDF_GEOM_HEIGHTFIELD ->
  scale <$> shape_pose
              (made_shape impl g urdfShape urdfMaterial localInertiaFrame flags)
  = Some (float_one, float_one, float_one).
Proof.
  intros [Hplane | Hfield].
  - rewrite (makeShape_plane_pose Hplane). reflexivity.
  - run_shape. rewrite Hfield. reflexivity.
Qed.

(** The mesh of the Shape: none on a Box, Sphere, Cylinder, Capsule or Plane
    and on the default Shape; on a Mesh geometry the flattened in-memory data
    when the file type is [MEMORY_VERTICES] and a reference to
    [m_meshFileName] otherwise; on a Heightfield always the flattened data. *)
Theorem makeShape_mesh_by_type :
  let geometry := m_geometry urdfShape in
  let mesh :=
    shape_mesh (made_shape impl g urdfShape urdfMaterial localInertiaFrame flags) in
  match m_type geometry with
  | URDF_GEOM_MESH =>
      mesh = Some (if m_meshFileType geometry =? MEMORY_VERTICES
                   then Mesh_of_data (getMeshData geometry)
                   else Mesh_of_file (m_meshFileName geometry))
  | URDF_GEOM_HEIGHTFIELD => mesh = Some (Mesh_of_data (getMeshData geometry))
  | _ => mesh = None
  end.
Proof.
  intros geometry mesh. subst mesh geometry. run_shape.
  destruct (m_type (m_geometry urdfShape)); reflexivity.
Qed.

(** The Shape has no material exactly when the geometry tag is unsupported
    or the geometry is a Mesh and the flag
    [URDF_USE_MATERIAL_COLORS_FROM_MTL] is set. *)
Theorem makeShape_material_none_iff :
  shape_material (made_shape impl g urdfShape urdfMaterial localInertiaFrame flags)
  = None
  <-> supported (m_type (m_geometry urdfShape)) = false \/
      (m_type (m_geometry urdfShape) = URDF_GEOM_MESH /\
       use_material_colors_from_mtl flags).
Proof.
  unfold use_material_colors_from_mtl. run_shape.
  destruct (m_type (m_geometry urdfShape)) eqn:Htype; simpl;
    try (split; [discriminate | intros [H | [H _]]; discriminate H]);
    try (split; [left; reflexivity | reflexivity]).
  destruct (Z.eqb_spec (Z.land flags URDF_USE_MATERIAL_COLORS_FROM_MTL) 0) as [E | E];
    simpl; split.
  - discriminate.
  - intros [H | [_ H]]; [discriminate H | contradiction].
  - intros _. right. split; [reflexivity | exact E].
  - reflexivity.
Qed.

(** The flags only matter on a Mesh geometry: for any other geometry tag
    [makeShape] is the same computation under any two flag values. *)
Theorem makeShape_flags_only_on_mesh (flags' : Z) :
  m_type (m_geometry urdfShape) <> URDF_GEOM_MESH ->
  makeShape urdfShape urdfMaterial localInertiaFrame flags
  = makeShape urdfShape urdfMaterial localInertiaFrame flags'.
Proof.
  intros Hmesh. unfold makeShape.
  destruct (m_type (m_geometry urdfShape)); try reflexivity.
  contradiction.
Qed.

(** A plane normal with a NaN component is never rotated: the comparison
    with 0.99 is false on a NaN dot product, and the pose is the pose of the
    link frame. *)
Theorem makeShape_plane_nan_normal :
  m_type (m_geometry urdfShape) = URDF_GEOM_PLANE ->
  v3_x (m_planeNormal (m_geometry urdfShape)) = S754_nan \/
  v3_y (m_planeNormal (m_geometry urdfShape)) = S754_nan \/
  v3_z (m_planeNormal (m_geometry urdfShape)) = S754_nan ->
  shape_pose (made_shape impl g urdfShape urdfMaterial localInertiaFrame flags)
  = Some (makePose (link_frame urdfShape localInertiaFrame)
            (mk_btVector3 B64.one B64.one B64.one)).
Proof.
  intros Hplane Hnan. rewrite (makeShape_plane_pose Hplane).
  assert (Hdot : Vec3.dot (m_planeNormal (m_geometry urdfShape))
                   (mk_btVector3 B64.zero B64.zero B64.one) = S754_nan).
  { unfold Vec3.dot. simpl v3_x; simpl v3_y; simpl v3_z.
    destruct Hnan as [-> | [-> | ->]].
    - reflexivity.
    - rewrite SFmul_nan_l, SFadd_nan_r. reflexivity.
    - rewrite SFmul_nan_l, SFadd_nan_r. reflexivity. }
  rewrite Hdot. reflexivity.
Qed.


End MakeShapeMore.

Lemma makeShape_unit_scale_witness :
  scale <$> shape_pose
    (made_shape (LM := Sample.math) Sample.counter_graph []
       (Sample.shape URDF_GEOM_HEIGHTFIELD) (Sample.material "") Sample.frame 0)
  = Some (float_one, float_one, float_one).
Proof.
  apply (makeShape_unit_scale (LM := Sample.math)). right. reflexivity.
Defined.

Lemma makeShape_flags_only_on_mesh_witness :
  makeShape (LM := Sample.math) (Sample.shape URDF_GEOM_BOX)
    (Sample.material "wood.png") Sample.frame 0
  = makeShape (LM := Sample.math) (Sample.shape URDF_GEOM_BOX)
      (Sample.material "wood.png") Sample.frame 32768.
Proof.
  apply (makeShape_flags_only_on_mesh (LM := Sample.math)). discriminate.
Defined.

Lemma makeShape_plane_nan_normal_witness :
  shape_pose
    (made_shape (LM := Sample.math) Sample.counter_graph []
       (plane_with_normal (mk_btVector3 B64.one S754_nan B64.zero))
       (Sample.material "") Sample.frame 0)
  = Some (makePose (LM := Sample.math)
            (link_frame (LM := Sample.math)
               (plane_with_normal (mk_btVector3 B64.one S754_nan B64.zero))
               Sample.frame)
            (mk_btVector3 B64.one B64.one B64.one)).
Proof.
  apply (makeShape_plane_nan_normal (LM := Sample.math)).
  - reflexivity.
  - right. left. reflexivity.
Defined.


Lemma makeVisualShapeData_filename_round_trip_witness :
  string_of_list_ascii
    (c_string (b3.m_meshAssetFileName
                 (makeVisualShapeData (LM := Sample.math) (Sample.shape URDF_GEOM_BOX)
                    (Sample.material "wood.png") Sample.frame 7 2)))
  = "wood.png"%string.
Proof.
  apply (makeVisualShapeData_filename_round_trip (LM := Sample.math)
           (Sample.shape URDF_GEOM_BOX) (Sample.material "wood.png")
           Sample.frame 7 2).
  - simpl. lia.
  - repeat constructor; discriminate.
Defined.

(* ===================================================================== *)
(** ** More on [getMeshData] *)
(* ===================================================================== *)

Lemma MeshData_eq (a b : MeshData) :
  vertices a = vertices b -> uvs a = uvs b -> normals a = normals b ->
  indices a = indices b -> a = b.
Proof. destruct a, b; simpl; intros -> -> -> ->; reflexivity. Qed.

Lemma concat_map_nil {A B : Type} (f : A -> list B) (l : list A) :
  (forall x, f x <> []) -> (concat (map f l) = [] <-> l = []).
Proof.
  intros Hf. destruct l as [| x l]; simpl; split; try reflexivity; try discriminate.
  intros H. apply app_eq_nil in H. destruct H as [H _]. elim (Hf x H).
Qed.

(** Flattening is compositional: a geometry whose four arrays are the
    concatenation of those of two geometries flattens to the concatenation
    of their mesh data, array by array. *)
Theorem getMeshData_app (geometry1 geometry2 geometry : UrdfGeometry) :
  m_vertices geometry = m_vertices geometry1 ++ m_vertices geometry2 ->
  m_uvs geometry = m_uvs geometry1 ++ m_uvs geometry2 ->
  m_normals geometry = m_normals geometry1 ++ m_normals geometry2 ->
  m_indices geometry = m_indices geometry1 ++ m_indices geometry2 ->
  getMeshData geometry
  = {| vertices := vertices (getMeshData geometry1) ++ vertices (getMeshData geometry2);
       uvs := uvs (getMeshData geometry1) ++ uvs (getMeshData geometry2);
       normals := normals (getMeshData geometry1) ++ normals (getMeshData geometry2);
       indices := indices (getMeshData geometry1) ++ indices (getMeshData geometry2) |}.
Proof.
  intros Hv Hu Hn Hi. apply MeshData_eq; cbn [vertices uvs normals indices];
    rewrite ?getMeshData_vertices, ?getMeshData_uvs, ?getMeshData_normals,
      ?getMeshData_indices.
  - rewrite Hv, map_app, concat_app. reflexivity.
  - rewrite Hu, map_app, concat_app. reflexivity.
  - rewrite Hn, map_app, concat_app. reflexivity.
  - exact Hi.
Qed.

Lemma getMeshData_app_witness :
  getMeshData
    {| m_type := URDF_GEOM_MESH;
       m_sphereRadius := B64.zero;
       m_boxSize := Sample.zero3;
       m_capsuleRadius := B64.zero;
       m_capsuleHeight := B64.zero;
       m_planeNormal := Sample.zero3;
       m_meshFileType := 5;
       m_meshFileName := "";
       m_meshScale := Sample.zero3;
       m_vertices := m_vertices (Sample.geometry URDF_GEOM_MESH)
                     ++ m_vertices (Sample.geometry URDF_GEOM_HEIGHTFIELD);
       m_uvs := m_uvs (Sample.geometry URDF_GEOM_MESH)
                ++ m_uvs (Sample.geometry URDF_GEOM_HEIGHTFIELD);
       m_normals := m_normals (Sample.geometry URDF_GEOM_MESH)
                    ++ m_normals (Sample.geometry URDF_GEOM_HEIGHTFIELD);
       m_indices := m_indices (Sample.geometry URDF_GEOM_MESH)
                    ++ m_indices (Sample.geometry URDF_GEOM_HEIGHTFIELD) |}
  = {| vertices := vertices (getMeshData (Sample.geometry URDF_GEOM_MESH))
                   ++ vertices (getMeshData (Sample.geometry URDF_GEOM_HEIGHTFIELD));
       uvs := uvs (getMeshData (Sample.geometry URDF_GEOM_MESH))
              ++ uvs (getMeshData (Sample.geometry URDF_GEOM_HEIGHTFIELD));
       normals := normals (getMeshData (Sample.geometry URDF_GEOM_MESH))
                  ++ normals (getMeshData (Sample.geometry URDF_GEOM_HEIGHTFIELD));
       indices := indices (getMeshData (Sample.geometry URDF_GEOM_MESH))
                  ++ indices (getMeshData (Sample.geometry URDF_GEOM_HEIGHTFIELD)) |}.
Proof. apply getMeshData_app; reflexivity. Defined.

(** Each output array is empty exactly when its input array is: a geometry
    without uvs or normals gives mesh data without them, whatever the number
    of vertices, and no array is checked against another. *)
Theorem getMeshData_empty_iff (geometry : UrdfGeometry) :
  (vertices (getMeshData geometry) = [] <-> m_vertices geometry = []) /\
  (uvs (getMeshData geometry) = [] <-> m_uvs geometry = []) /\
  (normals (getMeshData geometry) = [] <-> m_normals geometry = []) /\
  (indices (getMeshData geometry) = [] <-> m_indices geometry = []).
Proof.
  rewrite getMeshData_vertices, getMeshData_uvs, getMeshData_normals,
    getMeshData_indices.
  repeat split; try (apply concat_map_nil; discriminate);
    try (intros H; apply (concat_map_nil xyz); [discriminate | exact H]);
    try (intros H; apply (concat_map_nil xy); [discriminate | exact H]);
    try (intros ->; reflexivity); auto.
Qed.

Lemma makeShape_material_kept_witness :
  exists id : Z,
    shape_material
      (made_shape (LM := Sample.math) Sample.counter_graph []
         (Sample.shape URDF_GEOM_MESH) (Sample.material "wood.png") Sample.frame 0)
    = Some {| diffuse := (float_one, S754_finite false 8388608 (-24),
                          S754_finite false 8388608 (-24), float_one);
              specular := (S754_finite false 8388608 (-24),
                           S754_finite false 8388608 (-24),
                           S754_finite false 8388608 (-24));
              texture_id := id |}.
Proof.
  apply (makeShape_material_kept (LM := Sample.math) Sample.counter_graph []
           (Sample.shape URDF_GEOM_MESH) (Sample.material "wood.png")
           Sample.frame 0).
  - reflexivity.
  - right. reflexivity.
Defined.
